(** * Ishiko/Process: ChildProcessBuilder

    A shallow embedding of [src/src/ChildProcessBuilder.cpp].

    [ChildProcessBuilder::start(Error&)] is a straight-line sequence of
    operating-system calls whose results steer the control flow.  It is
    embedded as a tree of calls ([Prog]): every node is one call made by
    the C++ code, and the continuation receives what the operating system
    answered.  Running a tree against an arbitrary operating system
    ([run], over any state type and any handler) yields the list of calls
    made, in order, and how the process executing [start] ended up. *)

From Stdlib Require Import ZArith Lia.
From stdpp Require Import base list strings gmap.

Local Open Scope Z_scope.

(** ** Programs over operating-system calls *)

Inductive Prog (E : Type -> Type) (R : Type) : Type :=
| Ret (r : R)
| Vis {X : Type} (c : E X) (k : X -> Prog E R).

Arguments Ret {E R} r.
Arguments Vis {E R X} c k.

Fixpoint bind {E : Type -> Type} {A B : Type}
    (p : Prog E A) (f : A -> Prog E B) : Prog E B :=
  match p with
  | Ret a => f a
  | Vis c k => Vis c (fun x => bind (k x) f)
  end.

Definition call {E : Type -> Type} {X : Type} (c : E X) : Prog E X :=
  Vis c Ret.

#[global] Instance Prog_ret {E : Type -> Type} : MRet (Prog E) :=
  fun _ a => Ret a.
#[global] Instance Prog_bind {E : Type -> Type} : MBind (Prog E) :=
  fun _ _ f p => bind p f.

(** One call together with the answer it received. *)
Inductive Event (E : Type -> Type) : Type :=
| Ev {X : Type} (c : E X) (r : X).

Arguments Ev {E X} c r.

Section Run.
Context {E : Type -> Type} {W : Type}.
Variable handle : forall X : Type, E X -> W -> X * W.

(** [run p w] executes [p] from the operating-system state [w]: the
    calls made with their answers, the result, and the final state. *)
Fixpoint run {R : Type} (p : Prog E R) (w : W) : list (Event E) * R * W :=
  match p with
  | Ret r => ([], r, w)
  | Vis c k =>
      let xw := handle _ c w in
      let res := run (k xw.1) xw.2 in
      (Ev c xw.1 :: res.1.1, res.1.2, res.2)
  end.

Definition trace_of {R : Type} (p : Prog E R) (w : W) : list (Event E) :=
  (run p w).1.1.
Definition result_of {R : Type} (p : Prog E R) (w : W) : R :=
  (run p w).1.2.
Definition world_of {R : Type} (p : Prog E R) (w : W) : W :=
  (run p w).2.
End Run.

(** [answers_ignored sel p]: wherever [p] makes a call selected by [sel],
    what it does next is the same whatever the call answers. *)
Fixpoint answers_ignored {E : Type -> Type} {R : Type}
    (sel : forall X : Type, E X -> bool) (p : Prog E R) : Prop :=
  match p with
  | Ret _ => True
  | Vis c k =>
      (if sel _ c then forall x y, k x = k y else True)
      /\ forall x, answers_ignored sel (k x)
  end.

(** ** Collaborators declared outside [ChildProcessBuilder.cpp] *)

(** [CommandLine::Mode]. *)
Inductive Mode : Set := raw | quote_if_needed.

(** The part of the [CommandLine] interface that [start] calls.  The
    tokenising and quoting rules live in [CommandLine.hpp]; they are taken
    as an interface and left uninterpreted. *)
Class CommandLineOps (CommandLine : Type) : Type := {
  CommandLine_of_string : string -> CommandLine;
  getExecutable : CommandLine -> Mode -> string;
  getArguments : CommandLine -> Mode -> list string;
  toString : CommandLine -> Mode -> string
}.

(** A [char*] slot of an array allocated with [new char*[n]]: not yet
    written, the null pointer, or a pointer to a C string. *)
Inductive Slot : Set :=
| Uninit
| Null
| Str (s : string).

(** The part of the [Environment] interface that [start] calls: the
    serialisation to a [char**] array and to a Windows environment block. *)
Class EnvironmentOps (Environment : Type) : Type := {
  toEnvironmentArray : Environment -> list Slot;
  toEnvironmentBlock : Environment -> list Ascii.ascii
}.

(** Modelled from the spec: [ProcessErrorCategory] and [Error] are declared
    in headers that are not part of the sources at hand.  An [Error] is a
    failure descriptor, default-constructed to "no error"; [Fail] records a
    failure of the given kind in it. *)
Module ProcessErrorCategory.
Inductive Value : Set := generic.
End ProcessErrorCategory.

Inductive Error : Set :=
| NoError
| ProcessError (v : ProcessErrorCategory.Value).

Definition Fail (v : ProcessErrorCategory.Value) (error : Error) : Error :=
  ProcessError v.

Definition failed (error : Error) : bool :=
  match error with NoError => false | ProcessError _ => true end.

(** [ChildProcess] wraps one native process identifier: a [pid_t] on Linux,
    a process [HANDLE] on Windows. *)
Record ChildProcess : Set := mkChildProcess { native_id : Z }.

(** What became of the process that executed [start]. *)
Inductive Outcome : Set :=
| Returned (result : ChildProcess) (error : Error)
    (** [start] returned to its caller *)
| ImageReplaced
    (** an exec call succeeded: the process now runs the new program and
        [start] never returns *)
| Exited (status : Z)
    (** the process called [exit(status)] *)
| UninitialisedRead.
    (** a local variable was read before being written *)

(** ** The builder *)

Section Builder.
Context {CommandLine Environment : Type}.
Context `{CLO : CommandLineOps CommandLine} `{EO : EnvironmentOps Environment}.

Record ChildProcessBuilder : Type := mkBuilder {
  m_commandLine : CommandLine;
  m_environment : option Environment;
  m_standardOutputFilePath : string;
  m_current_working_directory : option string
}.

(** [ChildProcessBuilder(const CommandLine&)] *)
Definition new_builder (commandLine : CommandLine) : ChildProcessBuilder :=
  {| m_commandLine := commandLine;
     m_environment := None;
     m_standardOutputFilePath := EmptyString;
     m_current_working_directory := None |}.

(** [ChildProcessBuilder(const std::string&)] *)
Definition new_builder_of_string (commandLine : string) : ChildProcessBuilder :=
  new_builder (CommandLine_of_string commandLine).

(** [ChildProcessBuilder(const CommandLine&, const Environment&)] *)
Definition new_builder_env (commandLine : CommandLine)
    (environment : Environment) : ChildProcessBuilder :=
  {| m_commandLine := commandLine;
     m_environment := Some environment;
     m_standardOutputFilePath := EmptyString;
     m_current_working_directory := None |}.

Definition redirectStandardOutputToFile (path : string)
    (b : ChildProcessBuilder) : ChildProcessBuilder :=
  {| m_commandLine := m_commandLine b;
     m_environment := m_environment b;
     m_standardOutputFilePath := path;
     m_current_working_directory := m_current_working_directory b |}.

Definition setCurrentWorkingDirectory (path : string)
    (b : ChildProcessBuilder) : ChildProcessBuilder :=
  {| m_commandLine := m_commandLine b;
     m_environment := m_environment b;
     m_standardOutputFilePath := m_standardOutputFilePath b;
     m_current_working_directory := Some path |}.

(** [std::string::empty] *)
Definition empty (s : string) : bool :=
  match s with EmptyString => true | String _ _ => false end.

(** *** Linux *)

Definition O_WRONLY : Z := 1.
Definition O_CREAT : Z := 64.
Definition O_TRUNC : Z := 512.
Definition STDOUT_FILENO : Z := 1.
(** The octal literal [0400]. *)
Definition mode_0400 : Z := 256.

(** The calls of the Linux branch.  A [char*] result is [None] for the
    null pointer.  An exec call answers [None] when the process image was
    replaced (the call does not return) and [Some err] when it returned
    [err]. *)
Inductive PosixCall : Type -> Type :=
| FsExists (path : string) : PosixCall bool
| Fork : PosixCall Z
| Open (path : string) (flags mode : Z) : PosixCall Z
| Dup2 (oldfd newfd : Z) : PosixCall Z
| Realpath (path : string) : PosixCall (option string)
| Chdir (path : string) : PosixCall Z
| Execve (path : option string) (argv envp : list Slot) : PosixCall (option Z)
| Execv (path : option string) (argv : list Slot) : PosixCall (option Z)
| Free (ptr : option string) : PosixCall unit.

(** Lines 81-85: the loop writing one duplicated argument per slot. *)
Definition fill_arguments (arguments : list string)
    (argv : list Slot) (i : nat) : list Slot * nat :=
  foldl (fun st argument => (<[st.2 := Str argument]> st.1, S st.2))
        (argv, i) arguments.

(** Lines 76-86: the argument vector. *)
Definition build_argv (commandLine : CommandLine) : list Slot :=
  let arguments := getArguments commandLine raw in
  let argv := replicate (length arguments + 2)%nat Uninit in
  let i := 0%nat in
  let argv := <[i := Str (getExecutable commandLine raw)]> argv in
  let i := S i in
  let '(argv, i) := fill_arguments arguments argv i in
  <[i := Null]> argv.

(** Lines 76-117: the branch of [start] taken in the forked child. *)
Definition start_child (b : ChildProcessBuilder) : Prog PosixCall Outcome :=
  let argv := build_argv (m_commandLine b) in
  _ ← (if negb (empty (m_standardOutputFilePath b)) then
         fd ← call (Open (m_standardOutputFilePath b)
                      (Z.lor (Z.lor O_WRONLY O_CREAT) O_TRUNC) mode_0400);
         _ ← call (Dup2 fd STDOUT_FILENO);
         mret tt
       else mret tt);
  executable_path ← call (Realpath (getExecutable (m_commandLine b) raw));
  _ ← (match m_current_working_directory b with
       | Some dir => err ← call (Chdir dir); mret tt
       | None => mret tt
       end);
  err ← (match m_environment b with
         | Some env =>
             call (Execve executable_path argv (toEnvironmentArray env))
         | None => call (Execv executable_path argv)
         end);
  match err with
  | None => mret ImageReplaced
  | Some _ =>
      _ ← call (Free executable_path);
      mret (Exited (-1))
  end.

(** Lines 58-118: [start(Error&)] on Linux. *)
Definition start_posix (b : ChildProcessBuilder) (error : Error)
    : Prog PosixCall Outcome :=
  ex ← call (FsExists (getExecutable (m_commandLine b) raw));
  if negb ex then
    mret (Returned (mkChildProcess (-1))
            (Fail ProcessErrorCategory.generic error))
  else
    child ← call Fork;
    if child =? -1 then
      mret (Returned (mkChildProcess child)
              (Fail ProcessErrorCategory.generic error))
    else if child >? 0 then
      mret (Returned (mkChildProcess child) error)
    else
      start_child b.
(** *** Windows *)

Definition HANDLE : Set := Z.
Definition INVALID_HANDLE_VALUE : HANDLE := -1.
Definition FILE_APPEND_DATA : Z := 4.
Definition FILE_SHARE_READ : Z := 1.
Definition FILE_SHARE_WRITE : Z := 2.
Definition OPEN_ALWAYS : Z := 4.
Definition FILE_ATTRIBUTE_NORMAL : Z := 128.
Definition STARTF_USESTDHANDLES : Z := 256.
(** [sizeof] of the two structures on 64-bit Windows. *)
Definition sizeof_SECURITY_ATTRIBUTES : Z := 24.
Definition sizeof_STARTUPINFOA : Z := 104.

Record SECURITY_ATTRIBUTES : Set := {
  nLength : Z;
  lpSecurityDescriptor : option Z;
  bInheritHandle : bool
}.

(** The fields of [STARTUPINFOA] that [start] writes; [ZeroMemory] clears
    all the others. *)
Record STARTUPINFOA : Set := {
  cb : Z;
  dwFlags : Z;
  hStdOutput : HANDLE
}.

Record PROCESS_INFORMATION : Set := {
  hProcess : HANDLE;
  hThread : HANDLE
}.

(** The calls of the Windows branch.  [CreateProcessA] answers its [BOOL]
    result together with what it wrote to [processInfo]. *)
Inductive WinCall : Type -> Type :=
| CreateFileA (lpFileName : string) (dwDesiredAccess dwShareMode : Z)
    (lpSecurityAttributes : SECURITY_ATTRIBUTES)
    (dwCreationDisposition dwFlagsAndAttributes : Z)
    (hTemplateFile : option HANDLE) : WinCall HANDLE
| CreateProcessA (lpApplicationName : option string) (lpCommandLine : string)
    (bInheritHandles : bool) (dwCreationFlags : Z)
    (lpEnvironment : option (list Ascii.ascii))
    (lpCurrentDirectory : option string)
    (lpStartupInfo : STARTUPINFOA) : WinCall (bool * PROCESS_INFORMATION)
| CloseHandle (hObject : HANDLE) : WinCall bool.

(** Lines 20-28. *)
Definition createInheritableFile (path : string) : Prog WinCall HANDLE :=
  let securityAttributes :=
    {| nLength := sizeof_SECURITY_ATTRIBUTES;
       bInheritHandle := true;
       lpSecurityDescriptor := None |} in
  call (CreateFileA path FILE_APPEND_DATA (Z.lor FILE_SHARE_WRITE FILE_SHARE_READ)
          securityAttributes OPEN_ALWAYS FILE_ATTRIBUTE_NORMAL None).

(** Lines 120-168: [start(Error&)] on Windows.  The local [outputFile] is
    declared without an initialiser: it is [None] until it is assigned. *)
Definition start_windows (b : ChildProcessBuilder) (error : Error)
    : Prog WinCall Outcome :=
  let startupInfo :=
    {| cb := sizeof_STARTUPINFOA; dwFlags := 0; hStdOutput := 0 |} in
  let outputFile : option HANDLE := None in
  let inheritHandles := false in
  '(outputFile, inheritHandles, startupInfo) ←
    (if negb (empty (m_standardOutputFilePath b)) then
       let inheritHandles := true in
       outputFile ← createInheritableFile (m_standardOutputFilePath b);
       mret (Some outputFile, inheritHandles,
             {| cb := cb startupInfo;
                dwFlags := Z.lor (dwFlags startupInfo) STARTF_USESTDHANDLES;
                hStdOutput := outputFile |})
     else mret (outputFile, inheritHandles, startupInfo));
  let environment :=
    match m_environment b with
    | Some env => Some (toEnvironmentBlock env)
    | None => None
    end in
  let working_directory := m_current_working_directory b in
  let processInfo := {| hProcess := 0; hThread := 0 |} in
  let handle := INVALID_HANDLE_VALUE in
  created ← call (CreateProcessA None
                    (toString (m_commandLine b) quote_if_needed)
                    inheritHandles 0 environment working_directory
                    startupInfo);
  '(handle, error) ←
    (if negb created.1 then
       mret (handle, Fail ProcessErrorCategory.generic error)
     else
       let processInfo := created.2 in
       _ ← call (CloseHandle (hThread processInfo));
       mret (hProcess processInfo, error));
  if negb (empty (m_standardOutputFilePath b)) then
    match outputFile with
    | Some outputFile =>
        _ ← call (CloseHandle outputFile);
        mret (Returned (mkChildProcess handle) error)
    | None => mret UninitialisedRead
    end
  else mret (Returned (mkChildProcess handle) error).
End Builder.

(** ** Sample collaborators

    A command line given as its tokens, and an environment given as its
    list of bindings.  They instantiate the two interfaces in the
    examples. *)

Record TokenCommandLine : Set := {
  tcl_executable : string;
  tcl_arguments : list string
}.

Definition join_tokens (tokens : list string) : string :=
  foldr (fun token acc =>
           match acc with
           | EmptyString => token
           | _ => String.append token (String.append " " acc)
           end) EmptyString tokens.

#[global] Instance TokenCommandLine_ops : CommandLineOps TokenCommandLine := {
  CommandLine_of_string s := {| tcl_executable := s; tcl_arguments := [] |};
  getExecutable cl _ := tcl_executable cl;
  getArguments cl _ := tcl_arguments cl;
  toString cl _ := join_tokens (tcl_executable cl :: tcl_arguments cl)
}.

(** Modelled from the spec: [Environment] is declared in a header that is
    not part of the sources at hand.  It serialises to a null-terminated
    array of "KEY=VALUE" strings, and to a block of null-separated
    "KEY=VALUE" entries closed by one more null. *)
Definition BindingList : Set := list (string * string).

Definition binding_text (kv : string * string) : string :=
  String.append kv.1 (String.append "=" kv.2).

Definition NUL : Ascii.ascii := Ascii.zero.

#[global] Instance BindingList_ops : EnvironmentOps BindingList := {
  toEnvironmentArray env := map (fun kv => Str (binding_text kv)) env ++ [Null];
  toEnvironmentBlock env :=
    concat (map (fun kv => String.list_ascii_of_string (binding_text kv) ++ [NUL]) env)
      ++ [NUL]
}.

(** ** A reference Linux

    A small operating-system state against which the Linux branch can be
    run: the file system as a map from the paths that exist to their
    canonical names, the paths that can be opened for writing, the
    directories, the executable images, the descriptor table of the
    process, its working directory, and what [fork] answers in the process
    being observed (0 in the child, the child's pid in the parent, -1 on
    failure).  The answers follow the POSIX descriptions of the calls. *)
Record Linux : Type := {
  lx_paths : gmap string string;
  lx_writable : gset string;
  lx_directories : gset string;
  lx_images : gset string;
  lx_fds : gmap Z string;
  lx_cwd : string;
  lx_fork : Z
}.

(** The lowest descriptor number that is not in use. *)
Definition lowest_free (fds : gmap Z string) : Z :=
  match find (fun n => bool_decide (fds !! Z.of_nat n = None))
             (seq 0 (S (size fds))) with
  | Some n => Z.of_nat n
  | None => Z.of_nat (S (size fds))
  end.

Definition linux_set_fds (w : Linux) (fds : gmap Z string) : Linux :=
  {| lx_paths := lx_paths w; lx_writable := lx_writable w;
     lx_directories := lx_directories w; lx_images := lx_images w;
     lx_fds := fds; lx_cwd := lx_cwd w; lx_fork := lx_fork w |}.

Definition linux_set_cwd (w : Linux) (dir : string) : Linux :=
  {| lx_paths := lx_paths w; lx_writable := lx_writable w;
     lx_directories := lx_directories w; lx_images := lx_images w;
     lx_fds := lx_fds w; lx_cwd := dir; lx_fork := lx_fork w |}.

Definition linux_exec (w : Linux) (path : option string) : option Z :=
  match path with
  | Some p => if bool_decide (p ∈ lx_images w) then None else Some (-1)
  | None => Some (-1)
  end.

Definition linux (X : Type) (c : PosixCall X) (w : Linux) : X * Linux :=
  match c in PosixCall X return X * Linux with
  | FsExists path => (bool_decide (is_Some (lx_paths w !! path)), w)
  | Fork => (lx_fork w, w)
  | Open path _ _ =>
      if bool_decide (path ∈ lx_writable w) then
        let fd := lowest_free (lx_fds w) in
        (fd, linux_set_fds w (<[fd := path]> (lx_fds w)))
      else (-1, w)
  | Dup2 oldfd newfd =>
      match lx_fds w !! oldfd with
      | Some file => (newfd, linux_set_fds w (<[newfd := file]> (lx_fds w)))
      | None => (-1, w)
      end
  | Realpath path => (lx_paths w !! path, w)
  | Chdir path =>
      if bool_decide (path ∈ lx_directories w) then (0, linux_set_cwd w path)
      else (-1, w)
  | Execve path _ _ => (linux_exec w path, w)
  | Execv path _ => (linux_exec w path, w)
  | Free _ => (tt, w)
  end.

(** ** A reference Windows

    The Windows branch is run against a scripted system: what
    [CreateFileA] and [CreateProcessA] answer is fixed in advance, and the
    state records the handles that were closed, latest first. *)
Record Windows : Set := {
  win_file : HANDLE;
  win_created : bool;
  win_info : PROCESS_INFORMATION;
  win_closed : list HANDLE
}.

Definition windows (X : Type) (c : WinCall X) (w : Windows) : X * Windows :=
  match c in WinCall X return X * Windows with
  | CreateFileA _ _ _ _ _ _ _ => (win_file w, w)
  | CreateProcessA _ _ _ _ _ _ _ => ((win_created w, win_info w), w)
  | CloseHandle h =>
      (true, {| win_file := win_file w; win_created := win_created w;
                win_info := win_info w; win_closed := h :: win_closed w |})
  end.

(** ** Reading traces *)

(** [boost::filesystem::exists] answered [false]. *)
Definition exists_failed (e : Event PosixCall) : bool :=
  match e with
  | Ev c r =>
      match c in PosixCall X return X -> bool with
      | FsExists _ => fun r => negb r
      | _ => fun _ => false
      end r
  end.

(** [fork] answered [-1]. *)
Definition fork_failed (e : Event PosixCall) : bool :=
  match e with
  | Ev c r =>
      match c in PosixCall X return X -> bool with
      | Fork => fun r => r =? -1
      | _ => fun _ => false
      end r
  end.

Definition is_fork (e : Event PosixCall) : bool :=
  match e with Ev Fork _ => true | _ => false end.

Definition is_open (e : Event PosixCall) : bool :=
  match e with Ev (Open _ _ _) _ => true | _ => false end.

Definition is_dup2 (e : Event PosixCall) : bool :=
  match e with Ev (Dup2 _ _) _ => true | _ => false end.

Definition is_realpath (e : Event PosixCall) : bool :=
  match e with Ev (Realpath _) _ => true | _ => false end.

Definition is_chdir (e : Event PosixCall) : bool :=
  match e with Ev (Chdir _) _ => true | _ => false end.

Definition is_exec (e : Event PosixCall) : bool :=
  match e with Ev (Execve _ _ _) _ | Ev (Execv _ _) _ => true | _ => false end.

(** The path handed to an exec call. *)
Definition exec_path (e : Event PosixCall) : option (option string) :=
  match e with
  | Ev (Execve path _ _) _ | Ev (Execv path _) _ => Some path
  | _ => None
  end.

(** The argument vector handed to an exec call. *)
Definition exec_argv (e : Event PosixCall) : option (list Slot) :=
  match e with
  | Ev (Execve _ argv _) _ | Ev (Execv _ argv) _ => Some argv
  | _ => None
  end.

(** The environment handed to an exec call: [Some None] for [execv],
    which has no such parameter and keeps the environment of the caller. *)
Definition exec_envp (e : Event PosixCall) : option (option (list Slot)) :=
  match e with
  | Ev (Execve _ _ envp) _ => Some (Some envp)
  | Ev (Execv _ _) _ => Some None
  | _ => None
  end.

(** An exec call returned to its caller. *)
Definition exec_returned (e : Event PosixCall) : bool :=
  match e with
  | Ev c r =>
      match c in PosixCall X return X -> bool with
      | Execve _ _ _ => fun r => bool_decide (is_Some r)
      | Execv _ _ => fun r => bool_decide (is_Some r)
      | _ => fun _ => false
      end r
  end.

(** What the parent of a process that called [exit(status)] obtains from
    [WEXITSTATUS]: the low eight bits of [status]. *)
Definition wait_exit_status (status : Z) : Z := Z.land status 255.

Definition is_returned (o : Outcome) : bool :=
  match o with Returned _ _ => true | _ => false end.

Definition is_CreateFileA (e : Event WinCall) : bool :=
  match e with Ev (CreateFileA _ _ _ _ _ _ _) _ => true | _ => false end.

Definition is_CreateProcessA (e : Event WinCall) : bool :=
  match e with Ev (CreateProcessA _ _ _ _ _ _ _) _ => true | _ => false end.

(** [CreateProcessA] answered [FALSE]. *)
Definition create_process_failed (e : Event WinCall) : bool :=
  match e with
  | Ev c r =>
      match c in WinCall X return X -> bool with
      | CreateProcessA _ _ _ _ _ _ _ => fun r => negb r.1
      | _ => fun _ => false
      end r
  end.

(** [CreateProcessA] answered [TRUE]. *)
Definition create_process_succeeded (e : Event WinCall) : bool :=
  match e with
  | Ev c r =>
      match c in WinCall X return X -> bool with
      | CreateProcessA _ _ _ _ _ _ _ => fun r => r.1
      | _ => fun _ => false
      end r
  end.

Definition fork_call (X : Type) (c : PosixCall X) : bool :=
  match c with Fork => true | _ => false end.

Definition chdir_call (X : Type) (c : PosixCall X) : bool :=
  match c with Chdir _ => true | _ => false end.

Definition dup2_call (X : Type) (c : PosixCall X) : bool :=
  match c with Dup2 _ _ => true | _ => false end.

Definition is_CloseHandle (e : Event WinCall) : bool :=
  match e with Ev (CloseHandle _) _ => true | _ => false end.

(** ** The shape of a run

    The calls of lines 76-117, in program order, for given answers: [fd]
    and [r] from [open] and [dup2], [p] from [realpath], [r'] from [chdir],
    [x] from the exec call. *)
Section Shapes.
Context {CommandLine Environment : Type}.
Context `{CLO : CommandLineOps CommandLine} `{EO : EnvironmentOps Environment}.

Definition redirect_events (b : @ChildProcessBuilder CommandLine Environment)
    (fd r : Z) : list (Event PosixCall) :=
  if empty (m_standardOutputFilePath b) then []
  else [Ev (Open (m_standardOutputFilePath b)
              (Z.lor (Z.lor O_WRONLY O_CREAT) O_TRUNC) mode_0400) fd;
        Ev (Dup2 fd STDOUT_FILENO) r].

Definition chdir_events (b : @ChildProcessBuilder CommandLine Environment)
    (r' : Z) : list (Event PosixCall) :=
  match m_current_working_directory b with
  | Some dir => [Ev (Chdir dir) r']
  | None => []
  end.

Definition exec_event (b : @ChildProcessBuilder CommandLine Environment)
    (p : option string) (x : option Z) : Event PosixCall :=
  match m_environment b with
  | Some env =>
      Ev (Execve p (build_argv (m_commandLine b)) (toEnvironmentArray env)) x
  | None => Ev (Execv p (build_argv (m_commandLine b))) x
  end.

Definition cleanup_events (p : option string) (x : option Z)
    : list (Event PosixCall) :=
  match x with
  | Some _ => [Ev (Free p) tt]
  | None => []
  end.

Definition child_events (b : @ChildProcessBuilder CommandLine Environment)
    (fd r : Z) (p : option string) (r' : Z) (x : option Z)
    : list (Event PosixCall) :=
  redirect_events b fd r
  ++ Ev (Realpath (getExecutable (m_commandLine b) raw)) p
  :: chdir_events b r'
  ++ exec_event b p x
  :: cleanup_events p x.

(** The calls of lines 120-168, in program order, for given answers: [h]
    from [CreateFileA], [ok] and [info] from [CreateProcessA], [c1] and
    [c2] from the two [CloseHandle] calls. *)
Definition windows_events (b : @ChildProcessBuilder CommandLine Environment)
    (h : HANDLE) (ok : bool) (info : PROCESS_INFORMATION) (c1 c2 : bool)
    : list (Event WinCall) :=
  (if empty (m_standardOutputFilePath b) then []
   else [Ev (CreateFileA (m_standardOutputFilePath b) FILE_APPEND_DATA
               (Z.lor FILE_SHARE_WRITE FILE_SHARE_READ)
               {| nLength := sizeof_SECURITY_ATTRIBUTES;
                  bInheritHandle := true;
                  lpSecurityDescriptor := None |}
               OPEN_ALWAYS FILE_ATTRIBUTE_NORMAL None) h])
  ++ Ev (CreateProcessA None (toString (m_commandLine b) quote_if_needed)
           (negb (empty (m_standardOutputFilePath b))) 0
           (toEnvironmentBlock <$> m_environment b)
           (m_current_working_directory b)
           (if empty (m_standardOutputFilePath b)
            then {| cb := sizeof_STARTUPINFOA; dwFlags := 0; hStdOutput := 0 |}
            else {| cb := sizeof_STARTUPINFOA;
                    dwFlags := Z.lor 0 STARTF_USESTDHANDLES;
                    hStdOutput := h |}))
        (ok, info)
  :: (if ok then [Ev (CloseHandle (hThread info)) c1] else [])
  ++ (if empty (m_standardOutputFilePath b) then []
      else [Ev (CloseHandle h) c2]).
End Shapes.

(** ** The throwing form of [start]

    Lines 47-53: [start()] runs [start(Error&)] on a default-constructed
    [Error], then [ThrowIf(error)], then returns the handle. *)

(** How a call of [start()] ends: like the process that ran
    [start(Error&)], or with the exception [ThrowIf] raised. *)
Inductive Completion : Set :=
| Normal (o : Outcome)
| Thrown (error : Error).

(** Modelled from the spec: [ThrowIf] is declared in a header that is not
    part of the sources at hand; it throws when the [Error] holds a
    failure and does nothing otherwise. *)
Definition ThrowIf (o : Outcome) : Completion :=
  match o with
  | Returned result error => if failed error then Thrown error else Normal o
  | _ => Normal o
  end.

Definition start_throwing {E : Type -> Type}
    (start_error : Error -> Prog E Outcome) : Prog E Completion :=
  let error := NoError in
  result ← start_error error;
  mret (ThrowIf result).

(** ** More ways to read traces *)

(** What [fork] answered. *)
Definition fork_answer (e : Event PosixCall) : option Z :=
  match e with
  | Ev c r =>
      match c in PosixCall X return X -> option Z with
      | Fork => fun r => Some r
      | _ => fun _ => None
      end r
  end.

(** The directory handed to [chdir]. *)
Definition chdir_path (e : Event PosixCall) : option string :=
  match e with Ev (Chdir dir) _ => Some dir | _ => None end.

(** The two calls made before the process is duplicated. *)
Definition probes_or_forks (e : Event PosixCall) : bool :=
  match e with Ev (FsExists _) _ | Ev Fork _ => true | _ => false end.


(** The working directory given to [CreateProcessA]. *)
Definition create_process_directory (e : Event WinCall)
    : option (option string) :=
  match e with
  | Ev (CreateProcessA _ _ _ _ _ cwd _) _ => Some cwd
  | _ => None
  end.

(** The path handed to [open]. *)
Definition open_path (e : Event PosixCall) : option string :=
  match e with Ev (Open path _ _) _ => Some path | _ => None end.

(** The file name handed to [CreateFileA]. *)
Definition create_file_name (e : Event WinCall) : option string :=
  match e with
  | Ev (CreateFileA name _ _ _ _ _ _) _ => Some name
  | _ => None
  end.

(** ** Sample configurations *)

Definition helper_command : TokenCommandLine :=
  {| tcl_executable := "bin/helper"; tcl_arguments := ["-n"; "3"] |}.

Definition helper_builder : @ChildProcessBuilder TokenCommandLine BindingList :=
  new_builder helper_command.

Definition helper_builder_env : @ChildProcessBuilder TokenCommandLine BindingList :=
  new_builder_env helper_command [("LANG", "C")].

(** A system on which [bin/helper] exists and can be executed; [out.txt]
    can be opened for writing and [locked.txt] cannot; [/tmp] is the only
    directory. *)
Definition linux_with_fork (pid : Z) : Linux :=
  {| lx_paths := {[ "bin/helper" := "/opt/bin/helper" ]};
     lx_writable := {[ "out.txt" ]};
     lx_directories := {[ "/tmp" ]};
     lx_images := {[ "/opt/bin/helper" ]};
     lx_fds := {[ 0 := "tty"; 1 := "tty"; 2 := "tty" ]};
     lx_cwd := "/";
     lx_fork := pid |}.

(** The same system without [bin/helper]. *)
Definition linux_without_helper : Linux :=
  {| lx_paths := ∅;
     lx_writable := {[ "out.txt" ]};
     lx_directories := {[ "/tmp" ]};
     lx_images := ∅;
     lx_fds := {[ 0 := "tty"; 1 := "tty"; 2 := "tty" ]};
     lx_cwd := "/";
     lx_fork := 0 |}.

Definition windows_answering (created : bool) : Windows :=
  {| win_file := 44;
     win_created := created;
     win_info := {| hProcess := 100; hThread := 101 |};
     win_closed := [] |}.

(** * Properties *)

Section Properties.
Context {CommandLine Environment : Type}.
Context `{CLO : CommandLineOps CommandLine} `{EO : EnvironmentOps Environment}.

Abbreviation Builder := (@ChildProcessBuilder CommandLine Environment).

(** The loop of lines 81-85 fills the slots that follow the ones already
    written, one per argument, and leaves the remaining ones untouched. *)
Lemma fill_arguments_spec (arguments : list string) :
  forall (written : list Slot) (k : nat),
    fill_arguments arguments
      (written ++ replicate (length arguments + k) Uninit) (length written)
    = (written ++ map Str arguments ++ replicate k Uninit,
       (length written + length arguments)%nat).
Proof.
  unfold fill_arguments.
  induction arguments as [|a rest IH]; intros written k; simpl.
  - by rewrite Nat.add_0_r.
  - rewrite insert_app_r_alt by lia.
    rewrite Nat.sub_diag. simpl.
    replace (written ++ Str a :: replicate (length rest + k) Uninit)
      with ((written ++ [Str a]) ++ replicate (length rest + k) Uninit)
      by (by rewrite <- app_assoc).
    replace (S (length written)) with (length (written ++ [Str a]))
      by (rewrite length_app; simpl; lia).
    rewrite IH. rewrite <- app_assoc. simpl.
    f_equal. rewrite length_app. simpl. lia.
Qed.

Lemma build_argv_eq (commandLine : CommandLine) :
  build_argv commandLine
  = Str (getExecutable commandLine raw)
      :: map Str (getArguments commandLine raw) ++ [Null].
Proof.
  unfold build_argv.
  set (arguments := getArguments commandLine raw).
  set (exe := getExecutable commandLine raw).
  replace (length arguments + 2)%nat with (S (length arguments + 1)) by lia.
  simpl.
  pose proof (fill_arguments_spec arguments [Str exe] 1) as H.
  simpl in H. rewrite H. simpl. f_equal.
  rewrite insert_app_r_alt by (rewrite length_map; lia).
  rewrite length_map, Nat.sub_diag. reflexivity.
Qed.

(** What the calls of the child branch are, kind by kind. *)
Lemma child_events_kinds (b : Builder) (fd r : Z) (p : option string)
    (r' : Z) (x : option Z) :
  let t := child_events b fd r p r' x in
  existsb exists_failed t = false
  /\ existsb fork_failed t = false
  /\ existsb is_fork t = false
  /\ existsb is_exec t = true
  /\ existsb is_open t = negb (empty (m_standardOutputFilePath b))
  /\ existsb is_dup2 t = negb (empty (m_standardOutputFilePath b))
  /\ existsb is_chdir t = bool_decide (is_Some (m_current_working_directory b)).
Proof.
  destruct b as [cl [env|] [|a path] [dir|]]; destruct x; repeat split.
Qed.

Lemma exec_event_facts (b : Builder) (p : option string) (x : option Z) :
  is_exec (exec_event b p x) = true
  /\ exec_path (exec_event b p x) = Some p
  /\ exec_argv (exec_event b p x) = Some (build_argv (m_commandLine b))
  /\ exec_envp (exec_event b p x) = Some (toEnvironmentArray <$> m_environment b)
  /\ exec_returned (exec_event b p x) = bool_decide (is_Some x).
Proof.
  unfold exec_event. destruct (m_environment b); repeat split.
Qed.

Lemma redirect_events_no_exec (b : Builder) (fd r : Z) :
  existsb is_exec (redirect_events b fd r) = false.
Proof. unfold redirect_events. by destruct (empty _). Qed.

Lemma chdir_events_no_exec (b : Builder) (r' : Z) :
  existsb is_exec (chdir_events b r') = false.
Proof. unfold chdir_events. by destruct (m_current_working_directory b). Qed.

Lemma cleanup_events_no_exec (p : option string) (x : option Z) :
  existsb is_exec (cleanup_events p x) = false.
Proof. by destruct x. Qed.

Lemma windows_events_kinds (b : Builder) (h : HANDLE) (ok : bool)
    (info : PROCESS_INFORMATION) (c1 c2 : bool) :
  let t := windows_events b h ok info c1 c2 in
  existsb create_process_failed t = negb ok
  /\ existsb create_process_succeeded t = ok
  /\ existsb is_CreateFileA t = negb (empty (m_standardOutputFilePath b)).
Proof.
  destruct b as [cl env [|a path] cwd]; destruct ok; repeat split.
Qed.

Section PosixRuns.
Context {W : Type} (handle : forall X : Type, PosixCall X -> W -> X * W).

(** Every run of the child branch makes the calls of [child_events], and
    ends with the image replaced or with [exit(-1)]. *)
Lemma start_child_run (b : Builder) (w : W) :
  exists (fd r : Z) (p : option string) (r' : Z) (x : option Z),
    trace_of handle (start_child b) w = child_events b fd r p r' x
    /\ result_of handle (start_child b) w
       = match x with Some _ => Exited (-1) | None => ImageReplaced end.
Proof.
  destruct b as [cl env path cwd].
  unfold trace_of, result_of, start_child, child_events, redirect_events,
    chdir_events, exec_event, cleanup_events; simpl.
  destruct path as [|a path]; destruct cwd as [dir|]; destruct env as [env|];
    simpl;
    repeat match goal with
    | |- context [handle ?X ?c ?w] =>
        let x := fresh "x" in let w' := fresh "w" in
        destruct (handle X c w) as [x w'] eqn:?; simpl
    end;
    match goal with
    | x : option Z |- _ =>
        destruct x; simpl;
        repeat match goal with
        | |- context [handle ?X ?c ?w] =>
            let x := fresh "x" in let w' := fresh "w" in
            destruct (handle X c w) as [x w'] eqn:?; simpl
        end
    end;
    repeat match goal with u : unit |- _ => destruct u end;
    do 4 (eexists; [exact 0 .. | ]);
    lazymatch goal with
    | H : handle _ (Execve _ _ _) _ = (?a, _) |- _ => exists a
    | H : handle _ (Execv _ _) _ = (?a, _) |- _ => exists a
    end;
    (split; reflexivity).
Qed.

(** Every run of [start] on Linux takes one of its four paths: the
    executable is missing; [fork] fails; the parent returns the pid of the
    child; the child branch runs. *)
Lemma start_posix_run (b : Builder) (error : Error) (w : W) :
  let exe := getExecutable (m_commandLine b) raw in
  let t := trace_of handle (start_posix b error) w in
  let o := result_of handle (start_posix b error) w in
  (t = [Ev (FsExists exe) false]
   /\ o = Returned (mkChildProcess (-1)) (ProcessError ProcessErrorCategory.generic))
  \/ (t = [Ev (FsExists exe) true; Ev Fork (-1)]
      /\ o = Returned (mkChildProcess (-1)) (ProcessError ProcessErrorCategory.generic))
  \/ (exists child : Z,
        0 < child
        /\ t = [Ev (FsExists exe) true; Ev Fork child]
        /\ o = Returned (mkChildProcess child) error)
  \/ (exists (child : Z) (w' : W),
        child <> -1 /\ child <= 0
        /\ t = Ev (FsExists exe) true :: Ev Fork child
                :: trace_of handle (start_child b) w'
        /\ o = result_of handle (start_child b) w').
Proof.
  unfold trace_of, result_of, start_posix; simpl.
  destruct (handle bool (FsExists (getExecutable (m_commandLine b) raw)) w)
    as [ex w1]; simpl.
  destruct ex; simpl; [|by left].
  destruct (handle Z Fork w1) as [child w2]; simpl.
  destruct (Z.eqb_spec child (-1)) as [->|Hne]; simpl; [by right; left|].
  destruct (Z.gtb_spec child 0) as [Hpos|Hle]; simpl.
  - right; right; left. exists child. by repeat split.
  - right; right; right. exists child, w2. repeat split; [done|lia].
Qed.
End PosixRuns.

Section WindowsRuns.
Context {W : Type} (handle : forall X : Type, WinCall X -> W -> X * W).

(** Every run of [start] on Windows makes the calls of [windows_events]
    and returns: the process handle when [CreateProcessA] succeeded, the
    invalid handle and the generic error when it failed.  The local
    [outputFile] is never read before it is assigned. *)
Lemma start_windows_run (b : Builder) (error : Error) (w : W) :
  exists (h : HANDLE) (ok : bool) (info : PROCESS_INFORMATION) (c1 c2 : bool),
    trace_of handle (start_windows b error) w = windows_events b h ok info c1 c2
    /\ result_of handle (start_windows b error) w
       = Returned
           (mkChildProcess (if ok then hProcess info else INVALID_HANDLE_VALUE))
           (if ok then error else ProcessError ProcessErrorCategory.generic).
Proof.
  destruct b as [cl env path cwd].
  unfold trace_of, result_of, start_windows, windows_events,
    createInheritableFile; simpl.
  destruct path as [|a path]; simpl;
    repeat match goal with
    | |- context [handle ?X ?c ?w] =>
        let x := fresh "x" in let w' := fresh "w" in
        destruct (handle X c w) as [x w'] eqn:?; simpl
    end;
    match goal with
    | x : (bool * PROCESS_INFORMATION)%type |- _ =>
        destruct x as [[|] info]; simpl;
        repeat match goal with
        | |- context[handle ?X ?c ?w] =>
            let x := fresh "x" in let w' := fresh "w" in
            destruct (handle X c w) as [x w'] eqn:?; simpl
        end
    end.
  all: eexists; [exact 0 .. |].
  all: lazymatch goal with
       | H : handle _ (CreateProcessA _ _ _ _ _ _ _) _ = ((?ok, ?info), _) |- _ =>
           exists ok, info
       end.
  all: do 2 (eexists; [exact true .. |]).
  all: split; reflexivity.
Qed.
End WindowsRuns.

(** The child branch looks neither at what [chdir] answers nor at what
    [dup2] answers. *)
Lemma start_child_ignores (b : Builder) :
  answers_ignored chdir_call (start_child b)
  /\ answers_ignored dup2_call (start_child b).
Proof.
  destruct b as [cl [env|] [|a path] [dir|]]; unfold start_child; simpl;
    repeat match goal with
    | |- _ /\ _ => split
    | |- True => exact I
    | |- forall _, _ => intros
    | |- _ = _ => reflexivity
    | x : option Z |- answers_ignored _ (match ?x with _ => _ end) =>
        destruct x; simpl
    end.
Qed.

(** ** The claims *)

(** C1. Whenever the spawn fails, [start(Error&)] records the generic
    process error in the [Error] and returns an invalid [ChildProcess]:
    pid [-1] on Linux when the executable does not exist or when [fork]
    fails, [INVALID_HANDLE_VALUE] on Windows when [CreateProcessA] fails. *)
Theorem start_failure_gives_invalid_handle
    {WL WW : Type}
    (lin : forall X : Type, PosixCall X -> WL -> X * WL)
    (win : forall X : Type, WinCall X -> WW -> X * WW)
    (b : Builder) (error : Error) (wl : WL) (ww : WW) :
  (existsb exists_failed (trace_of lin (start_posix b error) wl) = true
   \/ existsb fork_failed (trace_of lin (start_posix b error) wl) = true ->
   result_of lin (start_posix b error) wl
   = Returned (mkChildProcess (-1)) (Fail ProcessErrorCategory.generic error))
  /\ (existsb create_process_failed (trace_of win (start_windows b error) ww)
      = true ->
      result_of win (start_windows b error) ww
      = Returned (mkChildProcess INVALID_HANDLE_VALUE)
          (Fail ProcessErrorCategory.generic error))
  /\ failed (Fail ProcessErrorCategory.generic error) = true.
Proof.
  split; [|split; [|reflexivity]].
  - destruct (start_posix_run lin b error wl)
      as [[Ht Ho]|[[Ht Ho]|[(child & Hpos & Ht & Ho)|(child & w' & Hne & Hle & Ht & Ho)]]];
      rewrite Ht, Ho; simpl; try done.
    + intros [H|H]; [done|].
      rewrite orb_false_r in H. apply Z.eqb_eq in H. lia.
    + destruct (start_child_run lin b w') as (fd & r & p & r' & x & Hc & _).
      rewrite Hc.
      destruct (child_events_kinds b fd r p r' x) as (He & Hf & _).
      cbv zeta in He, Hf. rewrite He, Hf.
      intros [H|H]; [done|].
      rewrite orb_false_r in H. apply Z.eqb_eq in H. done.
  - destruct (start_windows_run win b error ww)
      as (h & ok & info & c1 & c2 & Ht & Ho).
    rewrite Ht, Ho.
    destruct (windows_events_kinds b h ok info c1 c2) as (Hk & _).
    cbv zeta in Hk. rewrite Hk.
    by destruct ok.
Qed.

(** C2. The child hands exec a vector whose element 0 is the executable
    path, followed by the arguments in command-line order, followed by
    one null pointer: [number of arguments + 2] slots, all written. *)
Theorem argv_is_executable_arguments_null
    {W : Type} (handle : forall X : Type, PosixCall X -> W -> X * W)
    (b : Builder) (w : W) :
  let commandLine := m_commandLine b in
  let argv := Str (getExecutable commandLine raw)
                :: map Str (getArguments commandLine raw) ++ [Null] in
  build_argv commandLine = argv
  /\ length (build_argv commandLine)
     = (length (getArguments commandLine raw) + 2)%nat
  /\ exists (before after : list (Event PosixCall)) (e : Event PosixCall),
       trace_of handle (start_child b) w = before ++ e :: after
       /\ existsb is_exec before = false
       /\ existsb is_exec after = false
       /\ exec_argv e = Some argv.
Proof.
  intros commandLine argv.
  split; [apply build_argv_eq|].
  split.
  - rewrite build_argv_eq. simpl. rewrite length_app, length_map. simpl. lia.
  - destruct (start_child_run handle b w) as (fd & r & p & r' & x & Ht & _).
    exists (redirect_events b fd r
              ++ Ev (Realpath (getExecutable commandLine raw)) p
              :: chdir_events b r'),
      (cleanup_events p x), (exec_event b p x).
    split; [|split; [|split]].
    + rewrite Ht. unfold child_events. by rewrite <- app_assoc.
    + rewrite existsb_app. simpl.
      by rewrite redirect_events_no_exec, chdir_events_no_exec.
    + apply cleanup_events_no_exec.
    + destruct (exec_event_facts b p x) as (_ & _ & Ha & _).
      rewrite Ha. f_equal. apply build_argv_eq.
Qed.

(** C3. The child opens the recorded path with
    [O_WRONLY | O_CREAT | O_TRUNC] and duplicates the descriptor it
    obtained onto standard output, before the exec call, if and only if
    the path recorded by [redirectStandardOutputToFile] is not empty.  On
    the reference Linux, when that path can be opened, standard output
    refers to it once the child is done. *)
Theorem redirection_opens_truncating_then_dups
    {W : Type} (handle : forall X : Type, PosixCall X -> W -> X * W)
    (b : Builder) (w : W) (wl : Linux) :
  let path := m_standardOutputFilePath b in
  let t := trace_of handle (start_child b) w in
  (forall (path' : string) (b' : Builder),
      m_standardOutputFilePath (redirectStandardOutputToFile path' b') = path')
  /\ existsb is_open t = negb (empty path)
  /\ existsb is_dup2 t = negb (empty path)
  /\ Z.lor (Z.lor O_WRONLY O_CREAT) O_TRUNC = 577
  /\ (exists (fd r : Z) (mid after : list (Event PosixCall))
        (e : Event PosixCall),
       t = (if empty path then []
            else [Ev (Open path (Z.lor (Z.lor O_WRONLY O_CREAT) O_TRUNC)
                        mode_0400) fd;
                  Ev (Dup2 fd STDOUT_FILENO) r])
           ++ mid ++ e :: after
       /\ is_exec e = true
       /\ existsb is_exec mid = false
       /\ existsb is_open mid = false
       /\ existsb is_dup2 mid = false)
  /\ (empty path = false /\ path ∈ lx_writable wl ->
      lx_fds (world_of linux (start_child b) wl) !! STDOUT_FILENO = Some path).
Proof.
  intros path t.
  destruct (start_child_run handle b w) as (fd & r & p & r' & x & Ht & _).
  destruct (child_events_kinds b fd r p r' x) as (_ & _ & _ & _ & Hop & Hdu & _).
  cbv zeta in Hop, Hdu. subst t. rewrite Ht.
  split; [done|]. split; [done|]. split; [done|]. split; [done|].
  split.
  - exists fd, r,
      (Ev (Realpath (getExecutable (m_commandLine b) raw)) p :: chdir_events b r'),
      (cleanup_events p x), (exec_event b p x).
    destruct (exec_event_facts b p x) as (He & _).
    split; [reflexivity|]. split; [done|].
    unfold chdir_events. by destruct (m_current_working_directory b).
  - clear. intros [Hpath Hw]. subst path.
    destruct b as [cl env opath cwd]. simpl in *.
    unfold world_of, start_child. simpl. rewrite Hpath. simpl.
    rewrite (bool_decide_eq_true_2 _ Hw). simpl.
    rewrite lookup_insert_eq. simpl.
    destruct cwd as [dir|]; destruct env as [env|]; simpl;
      try case_bool_decide; simpl;
      destruct (linux_exec _ _); simpl; apply lookup_insert_eq.
Qed.

(** C4. The spawned process receives the explicit environment exactly when
    the builder holds one: on Linux the child calls [execve] with the
    serialised array if it does and [execv] otherwise; on Windows the
    environment pointer given to [CreateProcessA] is the serialised block
    if it does and null otherwise.  A builder holds an environment exactly
    when it was constructed with one. *)
Theorem environment_passed_exactly_when_configured
    {WL WW : Type}
    (lin : forall X : Type, PosixCall X -> WL -> X * WL)
    (win : forall X : Type, WinCall X -> WW -> X * WW)
    (b : Builder) (error : Error) (wl : WL) (ww : WW) :
  (exists (before after : list (Event PosixCall)) (p : option string)
      (x : option Z),
      trace_of lin (start_child b) wl
      = before
        ++ match m_environment b with
           | Some env =>
               Ev (Execve p (build_argv (m_commandLine b))
                     (toEnvironmentArray env)) x
           | None => Ev (Execv p (build_argv (m_commandLine b))) x
           end
        :: after
      /\ existsb is_exec before = false
      /\ existsb is_exec after = false)
  /\ (exists (before after : list (Event WinCall)) (inherit : bool)
        (startup : STARTUPINFOA) (answer : bool * PROCESS_INFORMATION),
        trace_of win (start_windows b error) ww
        = before
          ++ Ev (CreateProcessA None (toString (m_commandLine b) quote_if_needed)
                   inherit 0
                   match m_environment b with
                   | Some env => Some (toEnvironmentBlock env)
                   | None => None
                   end
                   (m_current_working_directory b) startup) answer
          :: after
        /\ existsb is_CreateProcessA before = false
        /\ existsb is_CreateProcessA after = false)
  /\ (forall commandLine : CommandLine,
        m_environment (new_builder commandLine : Builder) = None)
  /\ (forall commandLine : string,
        m_environment (new_builder_of_string commandLine : Builder) = None)
  /\ (forall (commandLine : CommandLine) (env : Environment),
        m_environment (new_builder_env commandLine env) = Some env)
  /\ (forall (path : string) (b' : Builder),
        m_environment (redirectStandardOutputToFile path b') = m_environment b'
        /\ m_environment (setCurrentWorkingDirectory path b') = m_environment b').
Proof.
  split; [|split; [|by repeat split]].
  - destruct (start_child_run lin b wl) as (fd & r & p & r' & x & Ht & _).
    exists (redirect_events b fd r
              ++ Ev (Realpath (getExecutable (m_commandLine b) raw)) p
              :: chdir_events b r'),
      (cleanup_events p x), p, x.
    split; [|split].
    + rewrite Ht. unfold child_events. by rewrite <- app_assoc.
    + rewrite existsb_app. simpl.
      by rewrite redirect_events_no_exec, chdir_events_no_exec.
    + apply cleanup_events_no_exec.
  - destruct (start_windows_run win b error ww)
      as (h & ok & info & c1 & c2 & Ht & _).
    rewrite Ht. unfold windows_events.
    destruct (empty (m_standardOutputFilePath b));
      do 5 eexists; (split; [reflexivity|]); by destruct ok.
Qed.

(** C5. When the exec call returns, the child frees the resolved path and
    calls [exit(-1)]: a status that is not zero, also as the parent sees
    it.  A run of [start] that reaches an exec call never returns to its
    caller, so nothing reaches the parent through the [Error]. *)
Theorem exec_failure_exits_nonzero
    {W : Type} (handle : forall X : Type, PosixCall X -> W -> X * W)
    (b : Builder) (error : Error) (w : W) :
  (exists (before after : list (Event PosixCall)) (e : Event PosixCall),
      trace_of handle (start_child b) w = before ++ e :: after
      /\ is_exec e = true
      /\ existsb is_exec before = false
      /\ (if exec_returned e
          then (exists p : option string, after = [Ev (Free p) tt])
               /\ result_of handle (start_child b) w = Exited (-1)
          else after = []
               /\ result_of handle (start_child b) w = ImageReplaced))
  /\ is_returned (result_of handle (start_child b) w) = false
  /\ is_returned (result_of handle (start_posix b error) w)
     = negb (existsb is_exec (trace_of handle (start_posix b error) w))
  /\ -1 <> 0
  /\ wait_exit_status (-1) = 255.
Proof.
  assert (Hchild : forall w' : W,
             is_returned (result_of handle (start_child b) w') = false
             /\ existsb is_exec (trace_of handle (start_child b) w') = true).
  { intros w'.
    destruct (start_child_run handle b w') as (fd & r & p & r' & x & Ht & Ho).
    rewrite Ht, Ho.
    destruct (child_events_kinds b fd r p r' x) as (_ & _ & _ & He & _).
    split; [by destruct x|done]. }
  split; [|split; [apply Hchild|split; [|done]]].
  - destruct (start_child_run handle b w) as (fd & r & p & r' & x & Ht & Ho).
    exists (redirect_events b fd r
              ++ Ev (Realpath (getExecutable (m_commandLine b) raw)) p
              :: chdir_events b r'),
      (cleanup_events p x), (exec_event b p x).
    destruct (exec_event_facts b p x) as (He & _ & _ & _ & Hr).
    rewrite Hr, Ho.
    split; [|split; [done|split]].
    + rewrite Ht. unfold child_events. by rewrite <- app_assoc.
    + rewrite existsb_app. simpl.
      by rewrite redirect_events_no_exec, chdir_events_no_exec.
    + destruct x; simpl; [|done]. split; [by exists p|done].
  - destruct (start_posix_run handle b error w)
      as [[Ht Ho]|[[Ht Ho]|[(child & Hpos & Ht & Ho)|(child & w' & Hne & Hle & Ht & Ho)]]];
      rewrite Ht, Ho; simpl; try done.
    destruct (Hchild w') as [-> ->]. done.
Qed.

(** C6. With a working directory set, the child calls [chdir] after the
    fork and immediately before the exec call, and what [chdir] answers
    changes nothing: the next call is the exec call whatever the answer,
    and a run that reaches [chdir] never returns to the caller of [start],
    so no [Error] is set for it. *)
Theorem chdir_failure_is_ignored
    {W : Type} (handle : forall X : Type, PosixCall X -> W -> X * W)
    (b : Builder) (error : Error) (dir : string) (w : W) :
  let b' := setCurrentWorkingDirectory dir b in
  let t := trace_of handle (start_posix b' error) w in
  m_current_working_directory b' = Some dir
  /\ answers_ignored chdir_call (start_child b')
  /\ (exists (before after : list (Event PosixCall)) (r : Z)
        (e : Event PosixCall),
        trace_of handle (start_child b') w
        = before ++ Ev (Chdir dir) r :: e :: after
        /\ is_exec e = true
        /\ existsb is_exec before = false
        /\ existsb is_chdir before = false
        /\ existsb is_fork before = false)
  /\ is_returned (result_of handle (start_posix b' error) w)
     = negb (existsb is_chdir t)
  /\ (existsb is_chdir t = false
      \/ exists (child : Z) (w' : W),
           t = Ev (FsExists (getExecutable (m_commandLine b') raw)) true
               :: Ev Fork child :: trace_of handle (start_child b') w'
           /\ child <> -1 /\ child <= 0).
Proof.
  intros b' t.
  split; [done|]. split; [apply start_child_ignores|].
  assert (Hchild : forall w' : W,
             is_returned (result_of handle (start_child b') w') = false
             /\ existsb is_chdir (trace_of handle (start_child b') w') = true).
  { intros w'.
    destruct (start_child_run handle b' w') as (fd & r & p & r' & x & Ht & Ho).
    rewrite Ht, Ho.
    destruct (child_events_kinds b' fd r p r' x) as (_ & _ & _ & _ & _ & _ & Hc).
    split; [by destruct x|done]. }
  split; [|split].
  - destruct (start_child_run handle b' w) as (fd & r & p & r' & x & Ht & _).
    exists (redirect_events b' fd r
              ++ [Ev (Realpath (getExecutable (m_commandLine b') raw)) p]),
      (cleanup_events p x), r', (exec_event b' p x).
    destruct (exec_event_facts b' p x) as (He & _).
    split; [|split; [done|]].
    + rewrite Ht. unfold child_events. by rewrite <- app_assoc.
    + rewrite !existsb_app. simpl.
      rewrite redirect_events_no_exec.
      unfold redirect_events. by destruct (empty _).
  - subst t.
    destruct (start_posix_run handle b' error w)
      as [[Ht Ho]|[[Ht Ho]|[(child & Hpos & Ht & Ho)|(child & w' & Hne & Hle & Ht & Ho)]]];
      rewrite Ht, Ho; simpl; try done.
    destruct (Hchild w') as [-> ->]. done.
  - subst t.
    destruct (start_posix_run handle b' error w)
      as [[Ht Ho]|[[Ht Ho]|[(child & Hpos & Ht & Ho)|(child & w' & Hne & Hle & Ht & Ho)]]];
      rewrite Ht; [by left ..|].
    right. by exists child, w'.
Qed.

(** C7. On Windows, once [CreateProcessA] has answered, the handle of the
    redirection file is closed whenever redirection was requested, whether
    the call succeeded or failed; on success the thread handle is closed
    first and the process handle is the one returned. *)
Theorem windows_closes_file_and_thread_handles
    {W : Type} (handle : forall X : Type, WinCall X -> W -> X * W)
    (b : Builder) (error : Error) (w : W) :
  let path := m_standardOutputFilePath b in
  exists (before after : list (Event WinCall)) (h : HANDLE) (inherit : bool)
    (startup : STARTUPINFOA) (ok : bool) (info : PROCESS_INFORMATION)
    (c1 c2 : bool),
    trace_of handle (start_windows b error) w
    = before
      ++ Ev (CreateProcessA None (toString (m_commandLine b) quote_if_needed)
               inherit 0 (toEnvironmentBlock <$> m_environment b)
               (m_current_working_directory b) startup) (ok, info)
      :: after
    /\ before
       = (if empty path then []
          else [Ev (CreateFileA path FILE_APPEND_DATA
                      (Z.lor FILE_SHARE_WRITE FILE_SHARE_READ)
                      {| nLength := sizeof_SECURITY_ATTRIBUTES;
                         bInheritHandle := true;
                         lpSecurityDescriptor := None |}
                      OPEN_ALWAYS FILE_ATTRIBUTE_NORMAL None) h])
    /\ after
       = (if ok then [Ev (CloseHandle (hThread info)) c1] else [])
         ++ (if empty path then [] else [Ev (CloseHandle h) c2])
    /\ result_of handle (start_windows b error) w
       = (if ok then Returned (mkChildProcess (hProcess info)) error
          else Returned (mkChildProcess INVALID_HANDLE_VALUE)
                 (Fail ProcessErrorCategory.generic error)).
Proof.
  intros path.
  destruct (start_windows_run handle b error w)
    as (h & ok & info & c1 & c2 & Ht & Ho).
  rewrite Ht, Ho. unfold windows_events. fold path.
  do 2 eexists. exists h. do 2 eexists. exists ok, info, c1, c2.
  split; [reflexivity|]. split; [reflexivity|]. split; [reflexivity|].
  by destruct ok.
Qed.

(** C8. On Linux the child calls [realpath] on the raw executable string
    before the exec call, and the exec call receives what [realpath]
    answered as its path, while element 0 of the argument vector stays the
    raw string.  On Windows [start] makes no call other than
    [CreateFileA], [CreateProcessA] and [CloseHandle], and
    [CreateProcessA] receives no application name and the command line as
    [CommandLine] renders it. *)
Theorem executable_resolved_on_linux_only
    {WL WW : Type}
    (lin : forall X : Type, PosixCall X -> WL -> X * WL)
    (win : forall X : Type, WinCall X -> WW -> X * WW)
    (b : Builder) (error : Error) (wl : WL) (ww : WW) :
  let exe := getExecutable (m_commandLine b) raw in
  (exists (before mid after : list (Event PosixCall)) (p : option string)
      (e : Event PosixCall),
      trace_of lin (start_child b) wl
      = before ++ Ev (Realpath exe) p :: mid ++ e :: after
      /\ exec_path e = Some p
      /\ (exists argv : list Slot,
            exec_argv e = Some argv /\ argv !! 0%nat = Some (Str exe))
      /\ existsb is_exec before = false
      /\ existsb is_exec mid = false
      /\ existsb is_exec after = false
      /\ existsb is_realpath before = false
      /\ existsb is_realpath mid = false
      /\ existsb is_realpath after = false)
  /\ forallb (fun e => is_CreateFileA e || is_CreateProcessA e || is_CloseHandle e)
       (trace_of win (start_windows b error) ww) = true
  /\ exists (before after : list (Event WinCall)) (inherit : bool)
       (env : option (list Ascii.ascii)) (cwd : option string)
       (startup : STARTUPINFOA) (answer : bool * PROCESS_INFORMATION),
       trace_of win (start_windows b error) ww
       = before
         ++ Ev (CreateProcessA None (toString (m_commandLine b) quote_if_needed)
                  inherit 0 env cwd startup) answer
         :: after
       /\ existsb is_CreateProcessA before = false
       /\ existsb is_CreateProcessA after = false.
Proof.
  intros exe.
  split.
  - destruct (start_child_run lin b wl) as (fd & r & p & r' & x & Ht & _).
    exists (redirect_events b fd r), (chdir_events b r'), (cleanup_events p x),
      p, (exec_event b p x).
    destruct (exec_event_facts b p x) as (_ & Hp & Ha & _).
    split; [done|]. split; [done|].
    split.
    { exists (build_argv (m_commandLine b)). split; [done|].
      by rewrite build_argv_eq. }
    rewrite redirect_events_no_exec, chdir_events_no_exec,
      cleanup_events_no_exec.
    repeat split.
    + unfold redirect_events. by destruct (empty _).
    + unfold chdir_events. by destruct (m_current_working_directory b).
    + by destruct x.
  - destruct (start_windows_run win b error ww)
      as (h & ok & info & c1 & c2 & Ht & _).
    rewrite Ht. unfold windows_events.
    split.
    + by destruct (empty (m_standardOutputFilePath b)), ok.
    + destruct (empty (m_standardOutputFilePath b));
        do 7 eexists; (split; [reflexivity|]); by destruct ok.
Qed.

(** C9. Recording the empty string leaves the builder as if no
    redirection had ever been requested, and [start] then redirects
    nothing: on Linux no file is opened and no descriptor duplicated; on
    Windows no file is created, handles are not inherited, the startup
    information carries no standard handle, and no file handle is closed. *)
Theorem empty_path_means_no_redirection
    {WL WW : Type}
    (lin : forall X : Type, PosixCall X -> WL -> X * WL)
    (win : forall X : Type, WinCall X -> WW -> X * WW)
    (b : Builder) (error : Error) (wl : WL) (ww : WW) :
  let b0 := redirectStandardOutputToFile EmptyString b in
  (forall commandLine : CommandLine,
      redirectStandardOutputToFile EmptyString (new_builder commandLine)
      = (new_builder commandLine : Builder))
  /\ (forall commandLine : string,
        redirectStandardOutputToFile EmptyString
          (new_builder_of_string commandLine)
        = (new_builder_of_string commandLine : Builder))
  /\ (forall (commandLine : CommandLine) (env : Environment),
        redirectStandardOutputToFile EmptyString
          (new_builder_env commandLine env)
        = new_builder_env commandLine env)
  /\ (forall (dir : string) (b' : Builder),
        redirectStandardOutputToFile EmptyString
          (setCurrentWorkingDirectory dir b')
        = setCurrentWorkingDirectory dir
            (redirectStandardOutputToFile EmptyString b'))
  /\ (forall (path : string) (b' : Builder),
        redirectStandardOutputToFile EmptyString
          (redirectStandardOutputToFile path b')
        = redirectStandardOutputToFile EmptyString b')
  /\ existsb is_open (trace_of lin (start_posix b0 error) wl) = false
  /\ existsb is_dup2 (trace_of lin (start_posix b0 error) wl) = false
  /\ exists (ok : bool) (info : PROCESS_INFORMATION) (c1 : bool),
       trace_of win (start_windows b0 error) ww
       = Ev (CreateProcessA None (toString (m_commandLine b) quote_if_needed)
               false 0 (toEnvironmentBlock <$> m_environment b)
               (m_current_working_directory b)
               {| cb := sizeof_STARTUPINFOA; dwFlags := 0; hStdOutput := 0 |})
            (ok, info)
         :: (if ok then [Ev (CloseHandle (hThread info)) c1] else []).
Proof.
  intros b0.
  do 5 (split; [done|]).
  assert (Hposix :
            existsb is_open (trace_of lin (start_posix b0 error) wl) = false
            /\ existsb is_dup2 (trace_of lin (start_posix b0 error) wl) = false).
  { destruct (start_posix_run lin b0 error wl)
      as [[Ht Ho]|[[Ht Ho]|[(child & Hpos & Ht & Ho)|(child & w' & Hne & Hle & Ht & Ho)]]];
      rewrite Ht; [done ..|].
    destruct (start_child_run lin b0 w') as (fd & r & p & r' & x & Hc & _).
    rewrite Hc.
    destruct (child_events_kinds b0 fd r p r' x)
      as (_ & _ & _ & _ & Hop & Hdu & _).
    cbv zeta in Hop, Hdu. change (existsb is_open (?a :: ?c :: ?l))
      with (existsb is_open l).
    change (existsb is_dup2 (?a :: ?c :: ?l)) with (existsb is_dup2 l).
    by rewrite Hop, Hdu. }
  split; [apply Hposix|]. split; [apply Hposix|].
  destruct (start_windows_run win b0 error ww)
      as (h & ok & info & c1 & c2 & Ht & _).
    exists ok, info, c1. rewrite Ht. unfold windows_events. simpl.
    by rewrite app_nil_r.
Qed.

(** C10. The child does not check whether the redirection file could be
    opened: whatever [open] answers is handed to [dup2], what [dup2]
    answers is ignored, and the exec call follows.  On the reference Linux,
    when the path cannot be opened, [open] answers [-1], [dup2] fails on
    it, the descriptor table is left as it was, and the child runs or
    exits exactly as it would without redirection. *)
Theorem open_failure_is_not_checked
    {W : Type} (handle : forall X : Type, PosixCall X -> W -> X * W)
    (b : Builder) (w : W) (wl : Linux)
    (Hpath : empty (m_standardOutputFilePath b) = false)
    (Hlocked : m_standardOutputFilePath b ∉ lx_writable wl)
    (Hfds : lx_fds wl !! (-1) = None) :
  let path := m_standardOutputFilePath b in
  let flags := Z.lor (Z.lor O_WRONLY O_CREAT) O_TRUNC in
  (exists (fd r : Z) (rest : list (Event PosixCall)),
      trace_of handle (start_child b) w
      = Ev (Open path flags mode_0400) fd :: Ev (Dup2 fd STDOUT_FILENO) r :: rest
      /\ existsb is_exec rest = true)
  /\ answers_ignored dup2_call (start_child b)
  /\ (exists rest : list (Event PosixCall),
        trace_of linux (start_child b) wl
        = Ev (Open path flags mode_0400) (-1)
          :: Ev (Dup2 (-1) STDOUT_FILENO) (-1) :: rest
        /\ existsb is_exec rest = true)
  /\ lx_fds (world_of linux (start_child b) wl) = lx_fds wl
  /\ result_of linux (start_child b) wl
     = match linux_exec wl
               (lx_paths wl !! getExecutable (m_commandLine b) raw) with
       | None => ImageReplaced
       | Some _ => Exited (-1)
       end.
Proof.
  intros path flags.
  assert (Hshape : forall {W' : Type}
             (handle' : forall X : Type, PosixCall X -> W' -> X * W') (w' : W'),
             exists (fd r : Z) (rest : list (Event PosixCall)),
               trace_of handle' (start_child b) w'
               = Ev (Open path flags mode_0400) fd
                 :: Ev (Dup2 fd STDOUT_FILENO) r :: rest
               /\ existsb is_exec rest = true).
  { intros W' handle' w'.
    destruct (start_child_run handle' b w') as (fd & r & p & r' & x & Ht & _).
    exists fd, r,
      (Ev (Realpath (getExecutable (m_commandLine b) raw)) p
         :: chdir_events b r' ++ exec_event b p x :: cleanup_events p x).
    split.
    - rewrite Ht. unfold child_events, redirect_events. by rewrite Hpath.
    - simpl. rewrite existsb_app. simpl.
      destruct (exec_event_facts b p x) as (-> & _).
      by rewrite orb_true_r. }
  split; [apply Hshape|]. split; [apply start_child_ignores|].
  destruct b as [cl env opath cwd]. simpl in *.
  subst path. unfold trace_of, world_of, result_of, start_child. simpl.
  rewrite Hpath. simpl.
  rewrite (bool_decide_eq_false_2 _ Hlocked). simpl. rewrite Hfds. simpl.
  split; [|split].
  - eexists. split; [reflexivity|].
    destruct cwd as [dir|]; destruct env as [env|]; simpl;
      rewrite ?orb_true_r; try done;
      case_bool_decide; simpl; by rewrite ?orb_true_r.
  - destruct cwd as [dir|]; destruct env as [env|]; simpl;
      try case_bool_decide; simpl;
      by destruct (linux_exec _ _).
  - destruct cwd as [dir|]; destruct env as [env|]; simpl;
      try case_bool_decide; simpl;
      unfold linux_exec; simpl;
      by destruct (lx_paths wl !! getExecutable cl raw);
        try case_bool_decide.
Qed.

End Properties.

(** * Further properties *)

Section FurtherProperties.
Context {CommandLine Environment : Type}.
Context `{CLO : CommandLineOps CommandLine} `{EO : EnvironmentOps Environment}.

Abbreviation Builder' := (@ChildProcessBuilder CommandLine Environment).

Lemma child_events_more_kinds (b : Builder') (fd r : Z) (p : option string)
    (r' : Z) (x : option Z) :
  let t := child_events b fd r p r' x in
  omap fork_answer t = []
  /\ forallb probes_or_forks t = false
  /\ omap chdir_path t
     = match m_current_working_directory b with
       | Some dir => [dir]
       | None => []
       end.
Proof.
  destruct b as [cl [env|] [|a path] [dir|]]; destruct x; repeat split.
Qed.

(** A pure step after a program adds no call. *)
Lemma run_then_ret {E : Type -> Type} {W A B : Type}
    (handle : forall X : Type, E X -> W -> X * W) (g : A -> B)
    (p : Prog E A) :
  forall w : W,
    run handle (bind p (fun a => Ret (g a))) w
    = ((run handle p w).1.1, g (run handle p w).1.2, (run handle p w).2).
Proof.
  induction p as [a|X c k IH]; intros w; simpl; [done|].
  by rewrite IH.
Qed.

(** X1. A successful spawn leaves the caller's [Error] exactly as it was
    passed in: on Linux when [fork] answers a positive pid, which is the
    pid returned; on Windows when [CreateProcessA] succeeds. *)
Theorem start_success_leaves_error_untouched
    {WL WW : Type}
    (lin : forall X : Type, PosixCall X -> WL -> X * WL)
    (win : forall X : Type, WinCall X -> WW -> X * WW)
    (b : Builder') (error : Error) (wl : WL) (ww : WW) :
  (forall child : Z,
      omap fork_answer (trace_of lin (start_posix b error) wl) = [child]
      /\ 0 < child ->
      result_of lin (start_posix b error) wl
      = Returned (mkChildProcess child) error)
  /\ (existsb create_process_succeeded
        (trace_of win (start_windows b error) ww) = true ->
      exists process : HANDLE,
        result_of win (start_windows b error) ww
        = Returned (mkChildProcess process) error).
Proof.
  split.
  - intros pid.
    destruct (start_posix_run lin b error wl)
      as [[Ht Ho]|[[Ht Ho]|[(child & Hpos & Ht & Ho)|(child & w' & Hne & Hle & Ht & Ho)]]];
      rewrite Ht, Ho.
    + by intros [? _].
    + intros [[= <-] ?]. lia.
    + by intros [[= <-] _].
    + destruct (start_child_run lin b w') as (fd & r & p & r' & x & Hc & _).
      rewrite Hc.
      destruct (child_events_more_kinds b fd r p r' x) as (Hf & _).
      cbv zeta in Hf.
      change (omap fork_answer (?a :: Ev Fork child :: ?l))
        with (child :: omap fork_answer l).
      rewrite Hf. intros [[= <-] ?]. lia.
  - destruct (start_windows_run win b error ww)
      as (h & ok & info & c1 & c2 & Ht & Ho).
    rewrite Ht, Ho.
    destruct (windows_events_kinds b h ok info c1 c2) as (_ & Hk & _).
    cbv zeta in Hk. rewrite Hk. intros ->. by eexists.
Qed.

(** X2. A missing executable is found out before any process is created:
    [fork] is called exactly in the runs where the existence check
    succeeded, and a run in which it failed consists of that one call. *)
Theorem missing_executable_never_forks
    {W : Type} (handle : forall X : Type, PosixCall X -> W -> X * W)
    (b : Builder') (error : Error) (w : W) :
  let t := trace_of handle (start_posix b error) w in
  existsb exists_failed t = negb (existsb is_fork t)
  /\ existsb exists_failed t = (length t =? 1)%nat.
Proof.
  intros t. subst t.
  destruct (start_posix_run handle b error w)
    as [[Ht Ho]|[[Ht Ho]|[(child & Hpos & Ht & Ho)|(child & w' & Hne & Hle & Ht & Ho)]]];
    rewrite Ht; [done ..|].
  destruct (start_child_run handle b w') as (fd & r & p & r' & x & Hc & _).
  rewrite Hc.
  destruct (child_events_kinds b fd r p r' x) as (He & _).
  cbv zeta in He.
  change (existsb exists_failed (?a :: ?c :: ?l))
    with (existsb exists_failed l).
  by rewrite He.
Qed.

(** X3. [start(Error&)] returns to its caller exactly in the runs that
    made no call besides the existence check and [fork]: the process that
    gets a handle back has opened no file, duplicated no descriptor,
    changed no directory and replaced no image. *)
Theorem returning_runs_only_probe_and_fork
    {W : Type} (handle : forall X : Type, PosixCall X -> W -> X * W)
    (b : Builder') (error : Error) (w : W) :
  is_returned (result_of handle (start_posix b error) w)
  = forallb probes_or_forks (trace_of handle (start_posix b error) w).
Proof.
  destruct (start_posix_run handle b error w)
    as [[Ht Ho]|[[Ht Ho]|[(child & Hpos & Ht & Ho)|(child & w' & Hne & Hle & Ht & Ho)]]];
    rewrite Ht, Ho; [done ..|].
  destruct (start_child_run handle b w') as (fd & r & p & r' & x & Hc & Hr).
  rewrite Hc, Hr.
  destruct (child_events_more_kinds b fd r p r' x) as (_ & Hp & _).
  cbv zeta in Hp.
  change (forallb probes_or_forks (?a :: Ev Fork child :: ?l))
    with (forallb probes_or_forks l).
  rewrite Hp. by destruct x.
Qed.

(** X4. The child opens the redirection file and resolves the executable
    before it changes directory: both paths are looked up relative to the
    working directory of the caller, not to the one set on the builder. *)
Theorem child_resolves_paths_before_chdir
    {W : Type} (handle : forall X : Type, PosixCall X -> W -> X * W)
    (b : Builder') (dir : string) (w : W) :
  let b' := setCurrentWorkingDirectory dir b in
  exists (before after : list (Event PosixCall)) (r : Z),
    trace_of handle (start_child b') w = before ++ Ev (Chdir dir) r :: after
    /\ existsb is_realpath before = true
    /\ existsb is_open before = negb (empty (m_standardOutputFilePath b))
    /\ existsb is_dup2 before = negb (empty (m_standardOutputFilePath b))
    /\ existsb is_chdir before = false
    /\ existsb is_realpath after = false
    /\ existsb is_open after = false
    /\ existsb is_dup2 after = false
    /\ existsb is_chdir after = false.
Proof.
  intros b'.
  destruct (start_child_run handle b' w) as (fd & r & p & r' & x & Ht & _).
  exists (redirect_events b' fd r
            ++ [Ev (Realpath (getExecutable (m_commandLine b') raw)) p]),
    (exec_event b' p x :: cleanup_events p x), r'.
  split.
  - rewrite Ht. unfold child_events. by rewrite <- app_assoc.
  - subst b'. destruct b as [cl [env|] [|a path] cwd]; destruct x;
      repeat split.
Qed.

(** What [start()] does is what [start(Error&)] does on a fresh [Error],
    followed by [ThrowIf]. *)
Lemma start_throwing_run {E : Type -> Type} {W : Type}
    (handle : forall X : Type, E X -> W -> X * W)
    (start_error : Error -> Prog E Outcome) (w : W) :
  trace_of handle (start_throwing start_error) w
  = trace_of handle (start_error NoError) w
  /\ result_of handle (start_throwing start_error) w
     = ThrowIf (result_of handle (start_error NoError) w).
Proof.
  unfold trace_of, result_of, start_throwing.
  change (run handle _ w)
    with (run handle (bind (start_error NoError) (fun o => Ret (ThrowIf o))) w)
    at 1 3.
  by rewrite run_then_ret.
Qed.

(** X5. On Linux [start()] never hands the invalid pid to its caller: it
    throws the generic error exactly when the existence check or [fork]
    failed, it returns a positive pid with no error in the parent, and in
    the child it ends with the image replaced or with [exit(-1)]. *)
Theorem start_throwing_posix_never_returns_invalid
    {W : Type} (handle : forall X : Type, PosixCall X -> W -> X * W)
    (b : Builder') (w : W) :
  let t := trace_of handle (start_throwing (start_posix b)) w in
  let c := result_of handle (start_throwing (start_posix b)) w in
  let spawn_failed := existsb exists_failed t || existsb fork_failed t in
  (c = Thrown (ProcessError ProcessErrorCategory.generic)
   /\ spawn_failed = true /\ existsb is_exec t = false)
  \/ ((exists pid : Z, 0 < pid /\ c = Normal (Returned (mkChildProcess pid) NoError))
      /\ spawn_failed = false /\ existsb is_exec t = false)
  \/ ((c = Normal ImageReplaced \/ c = Normal (Exited (-1)))
      /\ spawn_failed = false /\ existsb is_exec t = true).
Proof.
  intros t c spawn_failed. subst t c spawn_failed.
  destruct (start_throwing_run handle (start_posix b) w) as [-> ->].
  destruct (start_posix_run handle b NoError w)
    as [[Ht Ho]|[[Ht Ho]|[(child & Hpos & Ht & Ho)|(child & w' & Hne & Hle & Ht & Ho)]]];
    rewrite Ht, Ho.
  - by left.
  - by left.
  - right; left. simpl.
    destruct (Z.eqb_spec child (-1)) as [->|_]; [lia|].
    split; [by exists child|done].
  - right; right.
    destruct (start_child_run handle b w') as (fd & r & p & r' & x & Hc & Hr).
    rewrite Hc, Hr.
    destruct (child_events_kinds b fd r p r' x) as (He & Hf & _ & Hx & _).
    cbv zeta in He, Hf, Hx.
    change (existsb exists_failed (?a :: ?c :: ?l))
      with (existsb exists_failed l).
    change (existsb fork_failed (?a :: Ev Fork child :: ?l))
      with ((child =? -1) || existsb fork_failed l).
    change (existsb is_exec (?a :: Ev Fork child :: ?l))
      with (existsb is_exec l).
    rewrite He, Hf, Hx.
    destruct (Z.eqb_spec child (-1)) as [?|_]; [done|].
    split; [|done]. destruct x; [by right|by left].
Qed.


(** X7. On Windows the result of creating the redirection file is not
    checked: whatever handle [CreateFileA] answers becomes the standard
    output of the startup information, [CreateProcessA] is called with
    handle inheritance on, and that handle is closed last.  On the
    reference Windows, when [CreateFileA] answers [INVALID_HANDLE_VALUE]
    the process is created all the same. *)
Theorem windows_file_creation_is_not_checked
    {W : Type} (handle : forall X : Type, WinCall X -> W -> X * W)
    (b : Builder') (error : Error) (a : Ascii.ascii) (s : string) (w : W)
    (info : PROCESS_INFORMATION) (closed : list HANDLE) :
  let path := String a s in
  let b' := redirectStandardOutputToFile path b in
  let unlucky :=
    {| win_file := INVALID_HANDLE_VALUE; win_created := true;
       win_info := info; win_closed := closed |} in
  (exists (h : HANDLE) (ok : bool) (info' : PROCESS_INFORMATION)
     (c1 c2 : bool),
     trace_of handle (start_windows b' error) w
     = Ev (CreateFileA path FILE_APPEND_DATA
             (Z.lor FILE_SHARE_WRITE FILE_SHARE_READ)
             {| nLength := sizeof_SECURITY_ATTRIBUTES;
                bInheritHandle := true;
                lpSecurityDescriptor := None |}
             OPEN_ALWAYS FILE_ATTRIBUTE_NORMAL None) h
       :: Ev (CreateProcessA None (toString (m_commandLine b) quote_if_needed)
                true 0 (toEnvironmentBlock <$> m_environment b)
                (m_current_working_directory b)
                {| cb := sizeof_STARTUPINFOA;
                   dwFlags := STARTF_USESTDHANDLES;
                   hStdOutput := h |}) (ok, info')
       :: (if ok then [Ev (CloseHandle (hThread info')) c1] else [])
       ++ [Ev (CloseHandle h) c2])
  /\ result_of windows (start_windows b' error) unlucky
     = Returned (mkChildProcess (hProcess info)) error
  /\ win_closed (world_of windows (start_windows b' error) unlucky)
     = INVALID_HANDLE_VALUE :: hThread info :: closed.
Proof.
  intros path b' unlucky.
  split; [|by destruct b].
  destruct (start_windows_run handle b' error w)
    as (h & ok & info' & c1 & c2 & Ht & _).
  exists h, ok, info', c1, c2. by rewrite Ht.
Qed.

(** X8. The working directory is used exactly when one was set, and only
    by the new process: the Linux child calls [chdir] once, on the
    recorded directory, and not at all without one; a run of [start] that
    returns has called no [chdir]; on Windows the directory goes to
    [CreateProcessA], null without one.  Only
    [setCurrentWorkingDirectory] records a directory. *)
Theorem working_directory_used_exactly_when_set
    {WL WW : Type}
    (lin : forall X : Type, PosixCall X -> WL -> X * WL)
    (win : forall X : Type, WinCall X -> WW -> X * WW)
    (b : Builder') (error : Error) (wl : WL) (ww : WW) :
  let recorded :=
    match m_current_working_directory b with
    | Some dir => [dir]
    | None => []
    end in
  omap chdir_path (trace_of lin (start_child b) wl) = recorded
  /\ omap chdir_path (trace_of lin (start_posix b error) wl)
     = (if is_returned (result_of lin (start_posix b error) wl) then []
        else recorded)
  /\ omap create_process_directory (trace_of win (start_windows b error) ww)
     = [m_current_working_directory b]
  /\ (forall commandLine : CommandLine,
        m_current_working_directory (new_builder commandLine : Builder') = None)
  /\ (forall (commandLine : CommandLine) (env : Environment),
        m_current_working_directory (new_builder_env commandLine env) = None)
  /\ (forall (path : string) (b0 : Builder'),
        m_current_working_directory (redirectStandardOutputToFile path b0)
        = m_current_working_directory b0).
Proof.
  intros recorded.
  assert (Hchild : forall w' : WL,
             omap chdir_path (trace_of lin (start_child b) w') = recorded
             /\ is_returned (result_of lin (start_child b) w') = false).
  { intros w'.
    destruct (start_child_run lin b w') as (fd & r & p & r' & x & Hc & Hr).
    rewrite Hc, Hr.
    destruct (child_events_more_kinds b fd r p r' x) as (_ & _ & Hd).
    split; [done|by destruct x]. }
  split; [apply Hchild|]. split; [|split; [|done]].
  - destruct (start_posix_run lin b error wl)
      as [[Ht Ho]|[[Ht Ho]|[(child & Hpos & Ht & Ho)|(child & w' & Hne & Hle & Ht & Ho)]]];
      rewrite Ht, Ho; [done ..|].
    destruct (Hchild w') as [Hd ->].
    change (omap chdir_path (?a :: Ev Fork child :: ?l))
      with (omap chdir_path l).
    done.
  - destruct (start_windows_run win b error ww)
      as (h & ok & info & c1 & c2 & Ht & _).
    rewrite Ht. unfold windows_events.
    by destruct (empty (m_standardOutputFilePath b)), ok.
Qed.

(** X9. The setters overwrite and do not interfere: of two recorded
    working directories or two recorded redirection paths only the later
    one is used by [start], and the order in which a directory and a path
    are recorded makes no difference. *)
Theorem setters_last_write_wins
    {WL WW : Type}
    (lin : forall X : Type, PosixCall X -> WL -> X * WL)
    (win : forall X : Type, WinCall X -> WW -> X * WW)
    (b : Builder') (error : Error) (d1 d2 p1 p2 : string)
    (wl : WL) (ww : WW) :
  let twice_dir := setCurrentWorkingDirectory d2 (setCurrentWorkingDirectory d1 b) in
  let twice_path :=
    redirectStandardOutputToFile p2 (redirectStandardOutputToFile p1 b) in
  omap chdir_path (trace_of lin (start_child twice_dir) wl) = [d2]
  /\ omap create_process_directory
       (trace_of win (start_windows twice_dir error) ww) = [Some d2]
  /\ omap open_path (trace_of lin (start_child twice_path) wl)
     = (if empty p2 then [] else [p2])
  /\ omap create_file_name (trace_of win (start_windows twice_path error) ww)
     = (if empty p2 then [] else [p2])
  /\ redirectStandardOutputToFile p1 (setCurrentWorkingDirectory d1 b)
     = setCurrentWorkingDirectory d1 (redirectStandardOutputToFile p1 b).
Proof.
  intros twice_dir twice_path.
  split; [|split; [|split; [|split; [|done]]]].
  - destruct (start_child_run lin twice_dir wl) as (fd & r & p & r' & x & Hc & _).
    rewrite Hc.
    by destruct (child_events_more_kinds twice_dir fd r p r' x) as (_ & _ & ->).
  - destruct (start_windows_run win twice_dir error ww)
      as (h & ok & info & c1 & c2 & Ht & _).
    rewrite Ht. unfold windows_events. simpl.
    by destruct (empty (m_standardOutputFilePath b)), ok.
  - destruct (start_child_run lin twice_path wl) as (fd & r & p & r' & x & Hc & _).
    rewrite Hc. subst twice_path.
    destruct b as [cl [env|] path [dir|]]; destruct p2, x; reflexivity.
  - destruct (start_windows_run win twice_path error ww)
      as (h & ok & info & c1 & c2 & Ht & _).
    rewrite Ht. unfold windows_events. simpl.
    by destruct (empty p2), ok.
Qed.

(** X10. On Windows [start(Error&)] always returns to its caller, after at
    most four calls: its local [outputFile] is never read before it was
    assigned, and the handle returned is [INVALID_HANDLE_VALUE] whenever
    the [Error] was changed. *)
Theorem windows_start_always_returns
    {W : Type} (handle : forall X : Type, WinCall X -> W -> X * W)
    (b : Builder') (error : Error) (w : W) :
  (length (trace_of handle (start_windows b error) w) <= 4)%nat
  /\ exists (process : HANDLE) (error' : Error),
       result_of handle (start_windows b error) w
       = Returned (mkChildProcess process) error'
       /\ (error' = error
           \/ (error' = Fail ProcessErrorCategory.generic error
               /\ process = INVALID_HANDLE_VALUE)).
Proof.
  destruct (start_windows_run handle b error w)
    as (h & ok & info & c1 & c2 & Ht & Ho).
  rewrite Ht, Ho. split.
  - unfold windows_events.
    destruct (empty (m_standardOutputFilePath b)), ok; simpl; lia.
  - do 2 eexists. split; [reflexivity|].
    destruct ok; [by left|by right].
Qed.

(** X11. The child does not check what [realpath] answers.  On the
    reference Linux, when the executable cannot be resolved, the exec call
    receives the null pointer and returns, [free] receives the null
    pointer, and the child calls [exit(-1)]. *)
Theorem realpath_failure_is_not_checked
    (b : Builder') (wl : Linux)
    (Hgone : lx_paths wl !! getExecutable (m_commandLine b) raw = None) :
  (exists (before : list (Event PosixCall)) (e : Event PosixCall),
      trace_of linux (start_child b) wl
      = before
        ++ [Ev (Realpath (getExecutable (m_commandLine b) raw)) None]
        ++ match m_current_working_directory b with
           | Some dir =>
               [Ev (Chdir dir)
                  (if bool_decide (dir ∈ lx_directories wl) then 0 else -1)]
           | None => []
           end
        ++ [e; Ev (Free None) tt]
      /\ exec_path e = Some None
      /\ exec_returned e = true
      /\ existsb is_exec before = false)
  /\ result_of linux (start_child b) wl = Exited (-1).
Proof.
  destruct b as [cl env path cwd]. simpl in Hgone.
  unfold trace_of, result_of, start_child. simpl.
  destruct path as [|a path]; simpl.
  - rewrite Hgone. simpl.
    destruct cwd as [dir|]; destruct env as [env|]; simpl;
      try case_bool_decide; simpl;
      (split; [|done]); exists []; eexists; (split; [reflexivity|done]).
  - case_bool_decide; simpl.
    + rewrite lookup_insert_eq. simpl. rewrite Hgone. simpl.
      destruct cwd as [dir|]; destruct env as [env|]; simpl;
        try case_bool_decide; simpl;
        (split; [|done]);
        eexists [_; _]; eexists; (split; [reflexivity|done]).
    + destruct (lx_fds wl !! (-1)); simpl; rewrite Hgone; simpl;
        destruct cwd as [dir|]; destruct env as [env|]; simpl;
        try case_bool_decide; simpl;
        (split; [|done]);
        eexists [_; _]; eexists; (split; [reflexivity|done]).
Qed.

End FurtherProperties.

(** ** Runs on the reference systems *)

(** [start] does look at what [fork] answers. *)
Example start_posix_depends_on_fork :
  ~ answers_ignored fork_call (start_posix helper_builder NoError).
Proof.
  intros [_ H]. destruct (H true) as [H' _].
  specialize (H' 0 7). simpl in H'. discriminate H'.
Qed.

(** The child of a builder that redirects to [out.txt]. *)
Example run_child_redirected :
  run linux
    (start_posix (redirectStandardOutputToFile "out.txt" helper_builder) NoError)
    (linux_with_fork 0)
  = ([Ev (FsExists "bin/helper") true;
      Ev Fork 0;
      Ev (Open "out.txt" 577 256) 3;
      Ev (Dup2 3 1) 1;
      Ev (Realpath "bin/helper") (Some "/opt/bin/helper");
      Ev (Execv (Some "/opt/bin/helper")
            [Str "bin/helper"; Str "-n"; Str "3"; Null]) None],
     ImageReplaced,
     linux_set_fds (linux_with_fork 0)
       {[ 0 := "tty"; 1 := "out.txt"; 2 := "tty"; 3 := "out.txt" ]}).
Proof. vm_compute. reflexivity. Qed.

(** The parent of the same builder returns the pid of the child. *)
Example run_parent :
  run linux
    (start_posix (redirectStandardOutputToFile "out.txt" helper_builder) NoError)
    (linux_with_fork 4242)
  = ([Ev (FsExists "bin/helper") true; Ev Fork 4242],
     Returned (mkChildProcess 4242) NoError,
     linux_with_fork 4242).
Proof. vm_compute. reflexivity. Qed.

(** A working directory that does not exist: [chdir] answers [-1] and the
    child replaces its image all the same. *)
Example run_child_bad_directory :
  (run linux
     (start_posix (setCurrentWorkingDirectory "/nowhere" helper_builder_env)
        NoError)
     (linux_with_fork 0)).1
  = ([Ev (FsExists "bin/helper") true;
      Ev Fork 0;
      Ev (Realpath "bin/helper") (Some "/opt/bin/helper");
      Ev (Chdir "/nowhere") (-1);
      Ev (Execve (Some "/opt/bin/helper")
            [Str "bin/helper"; Str "-n"; Str "3"; Null]
            [Str "LANG=C"; Null]) None],
     ImageReplaced).
Proof. vm_compute. reflexivity. Qed.

(** Windows, redirected, [CreateProcessA] failing: the file handle is
    closed and the invalid handle returned. *)
Example run_windows_failure :
  run windows
    (start_windows (redirectStandardOutputToFile "out.txt" helper_builder)
       NoError)
    (windows_answering false)
  = ([Ev (CreateFileA "out.txt" 4 3
            {| nLength := 24; lpSecurityDescriptor := None;
               bInheritHandle := true |} 4 128 None) 44;
      Ev (CreateProcessA None "bin/helper -n 3" true 0 None None
            {| cb := 104; dwFlags := 256; hStdOutput := 44 |})
         (false, {| hProcess := 100; hThread := 101 |});
      Ev (CloseHandle 44) true],
     Returned (mkChildProcess (-1)) (ProcessError ProcessErrorCategory.generic),
     {| win_file := 44; win_created := false;
        win_info := {| hProcess := 100; hThread := 101 |};
        win_closed := [44] |}).
Proof. vm_compute. reflexivity. Qed.

(** A missing executable on Linux, a failing [fork], and a failing
    [CreateProcessA]. *)
Lemma start_failure_gives_invalid_handle_witness :
  (existsb exists_failed
     (trace_of linux (start_posix helper_builder NoError) linux_without_helper)
   = true
   /\ result_of linux (start_posix helper_builder NoError) linux_without_helper
      = Returned (mkChildProcess (-1))
          (ProcessError ProcessErrorCategory.generic))
  /\ (existsb fork_failed
        (trace_of linux (start_posix helper_builder NoError)
           (linux_with_fork (-1)))
      = true
      /\ result_of linux (start_posix helper_builder NoError)
           (linux_with_fork (-1))
         = Returned (mkChildProcess (-1))
             (ProcessError ProcessErrorCategory.generic))
  /\ (existsb create_process_failed
        (trace_of windows (start_windows helper_builder NoError)
           (windows_answering false))
      = true
      /\ result_of windows (start_windows helper_builder NoError)
           (windows_answering false)
         = Returned (mkChildProcess INVALID_HANDLE_VALUE)
             (ProcessError ProcessErrorCategory.generic)).
Proof.
  split; [|split]; (split; [vm_compute; reflexivity|]).
  - apply (proj1 (start_failure_gives_invalid_handle linux windows
                    helper_builder NoError linux_without_helper
                    (windows_answering false))).
    left. vm_compute. reflexivity.
  - apply (proj1 (start_failure_gives_invalid_handle linux windows
                    helper_builder NoError (linux_with_fork (-1))
                    (windows_answering false))).
    right. vm_compute. reflexivity.
  - apply (proj1 (proj2 (start_failure_gives_invalid_handle linux windows
                           helper_builder NoError linux_without_helper
                           (windows_answering false)))).
    vm_compute. reflexivity.
Defined.

(** Redirection to [locked.txt], which cannot be opened. *)
Lemma open_failure_is_not_checked_witness :
  let b := redirectStandardOutputToFile "locked.txt" helper_builder in
  let w := linux_with_fork 0 in
  empty (m_standardOutputFilePath b) = false
  /\ (m_standardOutputFilePath b ∉ lx_writable w)
  /\ lx_fds w !! (-1) = None
  /\ lx_fds (world_of linux (start_child b) w) = lx_fds w
  /\ result_of linux (start_child b) w
     = match linux_exec w (lx_paths w !! getExecutable (m_commandLine b) raw) with
       | None => ImageReplaced
       | Some _ => Exited (-1)
       end.
Proof.
  intros b w.
  assert (H1 : empty (m_standardOutputFilePath b) = false) by reflexivity.
  assert (H2 : m_standardOutputFilePath b ∉ lx_writable w).
  { apply (bool_decide_eq_false_1 _). vm_compute. reflexivity. }
  assert (H3 : lx_fds w !! (-1) = None) by (vm_compute; reflexivity).
  split; [exact H1|]. split; [exact H2|]. split; [exact H3|].
  apply (open_failure_is_not_checked linux b w w H1 H2 H3).
Defined.

(** Redirection to [out.txt], which can be opened. *)
Lemma redirection_opens_truncating_then_dups_witness :
  let b := redirectStandardOutputToFile "out.txt" helper_builder in
  let w := linux_with_fork 0 in
  (empty (m_standardOutputFilePath b) = false
   /\ m_standardOutputFilePath b ∈ lx_writable w)
  /\ lx_fds (world_of linux (start_child b) w) !! STDOUT_FILENO
     = Some "out.txt"%string.
Proof.
  intros b w.
  assert (H : empty (m_standardOutputFilePath b) = false
              /\ m_standardOutputFilePath b ∈ lx_writable w).
  { split; [reflexivity|].
    apply (bool_decide_eq_true_1 _). vm_compute. reflexivity. }
  split; [exact H|].
  apply (proj2 (proj2 (proj2 (proj2 (proj2
           (redirection_opens_truncating_then_dups linux b w w)))))).
  exact H.
Defined.

(** A parent whose [fork] answers 4242, and a [CreateProcessA] that
    succeeds, both called with an [Error] that already holds a failure. *)
Lemma start_success_leaves_error_untouched_witness :
  let error := ProcessError ProcessErrorCategory.generic in
  ((omap fork_answer
      (trace_of linux (start_posix helper_builder error) (linux_with_fork 4242))
    = [4242]
    /\ 0 < 4242)
   /\ result_of linux (start_posix helper_builder error) (linux_with_fork 4242)
      = Returned (mkChildProcess 4242) error)
  /\ (existsb create_process_succeeded
        (trace_of windows (start_windows helper_builder error)
           (windows_answering true))
      = true
      /\ exists process : HANDLE,
           result_of windows (start_windows helper_builder error)
             (windows_answering true)
           = Returned (mkChildProcess process) error).
Proof.
  intros error.
  split; split; [split; [vm_compute; reflexivity|lia]| |vm_compute; reflexivity|].
  - apply (proj1 (start_success_leaves_error_untouched linux windows
                    helper_builder error (linux_with_fork 4242)
                    (windows_answering true)) 4242).
    split; [vm_compute; reflexivity|lia].
  - apply (proj2 (start_success_leaves_error_untouched linux windows
                    helper_builder error (linux_with_fork 4242)
                    (windows_answering true))).
    vm_compute. reflexivity.
Defined.

(** The child on a system where [bin/helper] has disappeared. *)
Lemma realpath_failure_is_not_checked_witness :
  lx_paths linux_without_helper
    !! getExecutable (m_commandLine helper_builder) raw = None
  /\ result_of linux (start_child helper_builder) linux_without_helper
     = Exited (-1).
Proof.
  assert (H : lx_paths linux_without_helper
                !! getExecutable (m_commandLine helper_builder) raw = None)
    by (vm_compute; reflexivity).
  split; [exact H|].
  apply (proj2 (realpath_failure_is_not_checked helper_builder
                  linux_without_helper H)).
Defined.
